(** * ML::Layer — the abstract layer of a neural network (neural/layer.h)

    The header declares the base class [Layer]: three data members fixed at
    construction ([name_], [inputs_], [outputs_]), the parameter view
    [parameters_], a handful of inline accessors, and a table of virtual
    member functions.  All but two of the virtual members carry the pure
    specifier [= 0]; the exceptions are [max_width], which has an inline
    body, and [validate], whose body lives in the implementation file.

    The embedding follows the header member by member:
    - [size_t] is a 64-bit unsigned integer, kept as [N] with its range;
    - a class deriving from [Layer] is a table of optional overriders, and a
      virtual call resolves to the final overrider;
    - an object is the base sub-object together with the members the derived
      class adds. *)

From Stdlib Require Import NArith List String Lia.
From stdpp Require Import base option list strings.

(** ** C++ scalars and the bits of the standard library the header uses *)

Module Cxx.

(** [size_t] on the LP64 targets the library builds for. *)
Definition size_t := N.
Definition SIZE_MAX : N := (2 ^ 64 - 1)%N.
Definition in_size_t (n : N) : Prop := (n <= SIZE_MAX)%N.

(** [std::max(a, b)]: [(a < b) ? b : a]. *)
Definition std_max (a b : size_t) : size_t :=
  if (a <? b)%N then b else a.

(** A raw pointer: an address, or null. *)
Definition ptr := option N.

(** How a class declares a virtual member function: with the pure
    specifier [= 0], or with a body.  (A pure member may still be given a
    body out of line; it can then be named explicitly, but it never takes
    part in dispatch, which is what is modelled here.) *)
Inductive vdecl (A : Type) : Type :=
| pure_virtual : vdecl A
| defined (body : A) : vdecl A.
Arguments pure_virtual {A}.
Arguments defined {A} body.

End Cxx.
Import Cxx.

(** ** The parameter view *)

(** Modelled from the spec: the types [Parameters] and [Parameters_Ref]
    come from parameters.h, which is not part of the sources.  The view is
    a mapping from parameter-group names to the buffers of the owning layer,
    in declaration order; it refers to the storage and does not own it. *)
Record Parameter_Ref : Type := mkParameter_Ref {
  param_name   : string;   (* the group's name *)
  param_buffer : N;        (* which buffer of the layer it refers to *)
  param_size   : size_t    (* how many scalars the buffer holds *)
}.

Definition Parameters := list Parameter_Ref.
Definition Parameters_Ref := Parameters.

(** Modelled from the spec: [Parameters::clear()] leaves the view empty. *)
Definition Parameters_clear (p : Parameters) : Parameters := [].

(** ** The base class *)

Record Layer : Type := mkLayer {
  name_       : string;
  inputs_     : size_t;
  outputs_    : size_t;
  parameters_ : Parameters_Ref
}.

(** The non-virtual inline accessors. *)
Definition inputs (this : Layer) : size_t := inputs_ this.
Definition outputs (this : Layer) : size_t := outputs_ this.
Definition name (this : Layer) : string := name_ this.
Definition parameters (this : Layer) : Parameters_Ref := parameters_ this.

Definition set_parameters (p : Parameters_Ref) (this : Layer) : Layer :=
  {| name_ := name_ this; inputs_ := inputs_ this;
     outputs_ := outputs_ this; parameters_ := p |}.

(** ** The virtual members the base class declares

    Each declaration is the header's: [max_width] has an inline body, the
    others below end in [= 0]. *)

Definition Layer_max_width : vdecl (Layer -> size_t) :=
  defined (fun this => std_max (inputs_ this) (outputs_ this)).

Definition Layer_class_id : vdecl (Layer -> string) := pure_virtual.

Definition Layer_fprop_temporary_space_required : vdecl (Layer -> size_t) :=
  pure_virtual.

(** ** Derived classes, objects and virtual dispatch *)

Section Derived.

(** [Own]: the data members a derived class adds to the base sub-object.
    [Memory]: the store the raw [float*] / [double*] buffers point into. *)
Context {Own : Type} {Memory : Type}.

Record Object : Type := mkObject {
  base : Layer;
  own  : Own
}.

(** [virtual void apply(const F * input, F * output) const] *)
Definition apply_sig : Type := Object -> ptr -> ptr -> Memory -> Memory.

(** [virtual void fprop(const F * inputs, F * temp_space,
                        size_t temp_space_size, F * outputs) const] *)
Definition fprop_sig : Type :=
  Object -> ptr -> ptr -> size_t -> ptr -> Memory -> Memory.

(** What the reference [Parameters & params] designates: the layer's own
    view [parameters_] (the call [update_parameters] makes), or a
    [Parameters] object somewhere else. *)
Inductive params_ref : Type := own_view | elsewhere.

(** The storage a call of [add_parameters] works on: the object, and the
    referenced [Parameters] where that is not part of the object. *)
Definition ap_state (r : params_ref) : Type :=
  match r with
  | own_view  => Object
  | elsewhere => (Object * Parameters)%type
  end.

Definition this_of {r : params_ref} : ap_state r -> Object :=
  match r with
  | own_view  => fun s => s
  | elsewhere => fun s => s.1
  end.

(** Reading and writing through the reference. *)
Definition deref {r : params_ref} : ap_state r -> Parameters :=
  match r with
  | own_view  => fun s => parameters_ (base s)
  | elsewhere => fun s => s.2
  end.

Definition assign {r : params_ref} (p : Parameters) : ap_state r -> ap_state r :=
  match r with
  | own_view  => fun s => {| base := set_parameters p (base s); own := own s |}
  | elsewhere => fun s => (s.1, p)
  end.

(** Writing the members of the object: the base class's are protected, so
    an overrider reaches them as it does its own. *)
Definition map_this {r : params_ref} (f : Object -> Object)
    : ap_state r -> ap_state r :=
  match r with
  | own_view  => fun s => f s
  | elsewhere => fun s => (f s.1, s.2)
  end.

(** [virtual void add_parameters(Parameters & params)]: not [const], so it
    may change every member of the object as well as [params]. *)
Definition add_parameters_sig : Type :=
  forall r : params_ref, ap_state r -> ap_state r.

Definition Layer_add_parameters : vdecl add_parameters_sig := pure_virtual.
Definition Layer_apply : vdecl apply_sig := pure_virtual.
Definition Layer_fprop : vdecl fprop_sig := pure_virtual.

(** What a class deriving from [Layer] overrides; [None] where it declares
    no overrider of its own. *)
Record Derived_Class : Type := mkDerived_Class {
  ov_class_id       : option (Object -> string);
  ov_max_width      : option (Object -> size_t);
  ov_add_parameters : option add_parameters_sig;
  ov_apply_float    : option apply_sig;
  ov_apply_double   : option apply_sig;
  ov_fprop_temporary_space_required : option (Object -> size_t);
  ov_fprop_float    : option fprop_sig;
  ov_fprop_double   : option fprop_sig
}.

(** The final overrider of a virtual member: the derived class's own, else
    the body the base class gives, else none (the member stays pure). *)
Definition final_overrider {B A : Type}
    (decl : vdecl B) (inherit : B -> A) (ov : option A) : option A :=
  match ov with
  | Some f => Some f
  | None =>
      match decl with
      | defined body => Some (inherit body)
      | pure_virtual => None
      end
  end.

Definition on_base {A : Type} (f : Layer -> A) : Object -> A :=
  fun this => f (base this).

Definition final_class_id (cls : Derived_Class) :=
  final_overrider Layer_class_id on_base (ov_class_id cls).
Definition final_max_width (cls : Derived_Class) :=
  final_overrider Layer_max_width on_base (ov_max_width cls).
Definition final_add_parameters (cls : Derived_Class)
    : option add_parameters_sig :=
  final_overrider Layer_add_parameters id (ov_add_parameters cls).
Definition final_apply_float (cls : Derived_Class) :=
  final_overrider Layer_apply id (ov_apply_float cls).
Definition final_apply_double (cls : Derived_Class) :=
  final_overrider Layer_apply id (ov_apply_double cls).
Definition final_fprop_temporary_space_required (cls : Derived_Class) :=
  final_overrider Layer_fprop_temporary_space_required on_base
    (ov_fprop_temporary_space_required cls).
Definition final_fprop_float (cls : Derived_Class) :=
  final_overrider Layer_fprop id (ov_fprop_float cls).
Definition final_fprop_double (cls : Derived_Class) :=
  final_overrider Layer_fprop id (ov_fprop_double cls).

(** A class can be instantiated only when no member is left pure.  This
    tests the members modelled above: [false] means the class is abstract;
    [true] does not make it concrete, since the header has further pure
    members ([print], [targets], [equal_impl], [parameter_count],
    [random_fill], [zero_fill], [serialize], [reconstitute], [make_copy],
    [deep_copy], [bprop]) that are not part of this table. *)
Definition instantiable (cls : Derived_Class) : bool :=
  bool_decide (is_Some (final_class_id cls))
  && bool_decide (is_Some (final_max_width cls))
  && bool_decide (is_Some (final_add_parameters cls))
  && bool_decide (is_Some (final_apply_float cls))
  && bool_decide (is_Some (final_apply_double cls))
  && bool_decide (is_Some (final_fprop_temporary_space_required cls))
  && bool_decide (is_Some (final_fprop_float cls))
  && bool_decide (is_Some (final_fprop_double cls)).

(** Virtual calls on an object of dynamic type [cls].  [None]: the member
    has no final overrider, so there is nothing to call. *)
Definition max_width (cls : Derived_Class) (this : Object) : option size_t :=
  f ← final_max_width cls; Some (f this).

Definition class_id (cls : Derived_Class) (this : Object) : option string :=
  f ← final_class_id cls; Some (f this).

Definition fprop_temporary_space_required
    (cls : Derived_Class) (this : Object) : option size_t :=
  f ← final_fprop_temporary_space_required cls; Some (f this).

Definition apply_float (cls : Derived_Class) (this : Object)
    (input output : ptr) (m : Memory) : option Memory :=
  f ← final_apply_float cls; Some (f this input output m).

Definition apply_double (cls : Derived_Class) (this : Object)
    (input output : ptr) (m : Memory) : option Memory :=
  f ← final_apply_double cls; Some (f this input output m).

Definition fprop_float (cls : Derived_Class) (this : Object)
    (inputs_p temp_space : ptr) (temp_space_size : size_t) (outputs_p : ptr)
    (m : Memory) : option Memory :=
  f ← final_fprop_float cls;
  Some (f this inputs_p temp_space temp_space_size outputs_p m).

Definition fprop_double (cls : Derived_Class) (this : Object)
    (inputs_p temp_space : ptr) (temp_space_size : size_t) (outputs_p : ptr)
    (m : Memory) : option Memory :=
  f ← final_fprop_double cls;
  Some (f this inputs_p temp_space temp_space_size outputs_p m).

(** [parameters_.clear()] on the object. *)
Definition clear_view (this : Object) : Object :=
  {| base := set_parameters (Parameters_clear (parameters_ (base this)))
               (base this);
     own := own this |}.

(** Modelled from the spec: [Layer::update_parameters()] is declared in the
    header and defined in the implementation file, which is not part of the
    sources.  It clears the parameter view and then calls the virtual
    [add_parameters] on it: [params] refers to [parameters_] itself. *)
Definition update_parameters (cls : Derived_Class) (this : Object)
    : option Object :=
  match final_add_parameters cls with
  | Some add => Some (add own_view (clear_view this))
  | None => None
  end.

(** An overrider deposits reproducibly when a run on the cleared object,
    after an earlier such run, leaves the same view again. *)
Definition deposits_reproducibly (add : add_parameters_sig) : Prop :=
  forall o : Object,
    parameters_ (base (add own_view (clear_view (add own_view (clear_view o)))))
    = parameters_ (base (add own_view (clear_view o))).

(** An overrider that writes nothing but [params]. *)
Definition writes_params_only (add : add_parameters_sig) : Prop :=
  forall o : Object,
    clear_view (add own_view (clear_view o)) = clear_view o.

(** The class that overrides nothing. *)
Definition no_overriders : Derived_Class :=
  {| ov_class_id := None; ov_max_width := None; ov_add_parameters := None;
     ov_apply_float := None; ov_apply_double := None;
     ov_fprop_temporary_space_required := None;
     ov_fprop_float := None; ov_fprop_double := None |}.

End Derived.

Arguments Object : clear implicits.
Arguments Derived_Class : clear implicits.

(** ** Two small derived classes used as test objects *)

(** A class with two parameter buffers, a weight matrix and a bias vector,
    whose [add_parameters] registers them in that order and touches nothing
    else.  Its numeric members are placeholders: the store is [unit]. *)
Definition two_buffers_add_parameters : @add_parameters_sig unit :=
  fun r s =>
    assign
      (deref s ++
       [ mkParameter_Ref "weights" 0%N
           (inputs (base (this_of s)) * outputs (base (this_of s)))%N;
         mkParameter_Ref "bias" 1%N (outputs (base (this_of s))) ])
      s.

Definition Two_Buffers : Derived_Class unit unit :=
  {| ov_class_id       := Some (fun _ => "TWO_BUFFERS");
     ov_max_width      := None;
     ov_add_parameters := Some two_buffers_add_parameters;
     ov_apply_float    := Some (fun _ _ _ m => m);
     ov_apply_double   := Some (fun _ _ _ m => m);
     ov_fprop_temporary_space_required := Some (fun _ => 0%N);
     ov_fprop_float    := Some (fun _ _ _ _ _ m => m);
     ov_fprop_double   := Some (fun _ _ _ _ _ m => m) |}.

(** The same class with the overriders of [fprop_temporary_space_required]
    and [fprop] left out, relying on the defaults the comments announce. *)
Definition Relies_On_Defaults : Derived_Class unit unit :=
  {| ov_class_id       := Some (fun _ => "RELIES_ON_DEFAULTS");
     ov_max_width      := None;
     ov_add_parameters := Some two_buffers_add_parameters;
     ov_apply_float    := Some (fun _ _ _ m => m);
     ov_apply_double   := Some (fun _ _ _ m => m);
     ov_fprop_temporary_space_required := None;
     ov_fprop_float    := None;
     ov_fprop_double   := None |}.

(** A layer with three inputs and two outputs, its view not yet built. *)
Definition layer_3_2 : Object unit :=
  {| base := mkLayer "hidden" 3%N 2%N []; own := tt |}.

(** The same layer holding a stale view, left over from an earlier
    allocation. *)
Definition layer_3_2_stale : Object unit :=
  {| base := mkLayer "hidden" 3%N 2%N [ mkParameter_Ref "old" 7%N 1%N ];
     own := tt |}.



Definition counting_layer : Object N :=
  {| base := mkLayer "c" 1%N 1%N []; own := 0%N |}.

(** A class that counts the calls of [add_parameters] among its own
    members and bumps [outputs_] on the way, but always deposits the same
    single buffer. *)
Definition call_counter_add_parameters : @add_parameters_sig N :=
  fun r s =>
    map_this
      (fun o => {| base := {| name_ := name_ (base o);
                              inputs_ := inputs_ (base o);
                              outputs_ := N.succ (outputs_ (base o));
                              parameters_ := parameters_ (base o) |};
                   own := N.succ (own o) |})
      (assign (deref s ++ [ mkParameter_Ref "weights" 0%N 4%N ]) s).

Definition Call_Counter : Derived_Class N unit :=
  {| ov_class_id       := Some (fun _ => "CALL_COUNTER");
     ov_max_width      := None;
     ov_add_parameters := Some call_counter_add_parameters;
     ov_apply_float    := Some (fun _ _ _ m => m);
     ov_apply_double   := Some (fun _ _ _ m => m);
     ov_fprop_temporary_space_required := Some (fun _ => 0%N);
     ov_fprop_float    := Some (fun _ _ _ _ _ m => m);
     ov_fprop_double   := Some (fun _ _ _ _ _ m => m) |}.

(** * Properties *)

(** ** [std::max] and the range of [size_t] *)

Lemma std_max_is_max (a b : size_t) : std_max a b = N.max a b.
Proof.
  unfold std_max. destruct (N.ltb_spec a b) as [Hlt | Hge].
  - symmetry. apply N.max_r. lia.
  - symmetry. apply N.max_l. exact Hge.
Qed.

Lemma std_max_picks_an_argument (a b : size_t) :
  std_max a b = a \/ std_max a b = b.
Proof. unfold std_max. destruct (a <? b)%N; auto. Qed.

Lemma std_max_in_size_t (a b : size_t) :
  in_size_t a -> in_size_t b -> in_size_t (std_max a b).
Proof.
  intros Ha Hb. destruct (std_max_picks_an_argument a b) as [-> | ->]; assumption.
Qed.

(** ** Virtual dispatch *)

Section Dispatch.

Context {Own Memory : Type}.
Implicit Types (cls : Derived_Class Own Memory) (this : Object Own).

Lemma final_overrider_own {B A : Type} (decl : vdecl B) (inh : B -> A) (f : A) :
  final_overrider decl inh (Some f) = Some f.
Proof. reflexivity. Qed.

Lemma final_overrider_pure {B A : Type} (inh : B -> A) :
  final_overrider pure_virtual inh None = None.
Proof. reflexivity. Qed.

Lemma final_overrider_inherited {B A : Type} (body : B) (inh : B -> A) :
  final_overrider (defined body) inh None = Some (inh body).
Proof. reflexivity. Qed.

(** An overrider of [max_width] in the derived class takes precedence. *)
Lemma max_width_overridden cls this f :
  ov_max_width cls = Some f -> max_width cls this = Some (f this).
Proof. intros Hov. unfold max_width, final_max_width. rewrite Hov. reflexivity. Qed.

(** The inherited [max_width] never fails, whatever the class. *)
Lemma max_width_total cls this : is_Some (max_width cls this).
Proof.
  unfold max_width, final_max_width.
  destruct (ov_max_width cls); simpl; eauto.
Qed.

(** What the inherited body computes, as the header writes it. *)
Lemma max_width_inherited cls this :
  ov_max_width cls = None ->
  max_width cls this = Some (std_max (inputs_ (base this)) (outputs_ (base this))).
Proof.
  intros Hov. unfold max_width, final_max_width, Layer_max_width.
  rewrite Hov, final_overrider_inherited. reflexivity.
Qed.

(** C10: for a layer whose class does not override [max_width], the call
    [max_width()] returns the maximum of [inputs()] and [outputs()]. *)
Theorem max_width_default cls this :
  ov_max_width cls = None ->
  max_width cls this = Some (N.max (inputs (base this)) (outputs (base this))).
Proof.
  intros Hov. rewrite (max_width_inherited _ _ Hov).
  unfold inputs, outputs. f_equal. apply std_max_is_max.
Qed.

(** The inherited [max_width] stays within [size_t] and dominates both
    dimensions. *)
Lemma max_width_inherited_bounds cls this w :
  ov_max_width cls = None ->
  max_width cls this = Some w ->
  (inputs (base this) <= w)%N /\ (outputs (base this) <= w)%N /\
  (in_size_t (inputs (base this)) -> in_size_t (outputs (base this)) ->
   in_size_t w).
Proof.
  intros Hov Hw. rewrite (max_width_inherited _ _ Hov) in Hw.
  injection Hw as <-. rewrite std_max_is_max.
  unfold in_size_t, inputs, outputs. repeat split; lia.
Qed.

End Dispatch.

(** The inherited [max_width] on a 3-by-2 layer. *)
Lemma max_width_default_witness :
  max_width Two_Buffers layer_3_2 = Some (N.max 3 2)%N.
Proof. apply (max_width_default Two_Buffers layer_3_2). reflexivity. Defined.

(** [Layer] itself, with no overrider at all, is abstract, yet its
    [max_width] is already there to be inherited. *)
Lemma Layer_is_abstract (this : Object unit) :
  instantiable (@no_overriders unit unit) = false /\
  max_width (@no_overriders unit unit) this
  = Some (std_max (inputs_ (base this)) (outputs_ (base this))).
Proof. split; reflexivity. Qed.

(** ** The numeric members have no default in the base class *)

Section Pure_Members.

Context {Own Memory : Type}.
Implicit Types (cls : Derived_Class Own Memory) (this : Object Own).

(** Without an overrider of its own a class has no
    [fprop_temporary_space_required] to call: the header declares it
    [= 0]. *)
Lemma fprop_temporary_space_required_pure cls this :
  ov_fprop_temporary_space_required cls = None ->
  fprop_temporary_space_required cls this = None.
Proof.
  intros Hov.
  unfold fprop_temporary_space_required, final_fprop_temporary_space_required.
  rewrite Hov. reflexivity.
Qed.

Lemma fprop_double_pure cls this i t n o (m : Memory) :
  ov_fprop_double cls = None -> fprop_double cls this i t n o m = None.
Proof.
  intros Hov. unfold fprop_double, final_fprop_double. rewrite Hov. reflexivity.
Qed.

Lemma fprop_float_pure cls this i t n o (m : Memory) :
  ov_fprop_float cls = None -> fprop_float cls this i t n o m = None.
Proof.
  intros Hov. unfold fprop_float, final_fprop_float. rewrite Hov. reflexivity.
Qed.

(** Such a class is abstract. *)
Lemma not_instantiable_without_temporary_space cls :
  ov_fprop_temporary_space_required cls = None -> instantiable cls = false.
Proof.
  intros Hov.
  assert (Hpure : bool_decide
            (is_Some (final_fprop_temporary_space_required cls)) = false).
  { apply bool_decide_eq_false_2.
    unfold final_fprop_temporary_space_required. rewrite Hov.
    intros [f Hf]. discriminate Hf. }
  unfold instantiable. rewrite Hpure.
  rewrite andb_false_r. reflexivity.
Qed.

(** When the class does override it, the call is the overrider's. *)
Lemma fprop_temporary_space_required_overridden cls this f :
  ov_fprop_temporary_space_required cls = Some f ->
  fprop_temporary_space_required cls this = Some (f this).
Proof.
  intros Hov.
  unfold fprop_temporary_space_required, final_fprop_temporary_space_required.
  rewrite Hov. reflexivity.
Qed.

End Pure_Members.

(** C6: the base class is claimed to supply defaults, so that
    [fprop_temporary_space_required] returns 0 when not overridden and
    [fprop] then behaves as [apply].  The header declares both members pure:
    a class that leaves them out has neither to call, in either precision,
    and cannot be instantiated, although it does supply [apply]. *)
Theorem fprop_defaults_missing (this : Object unit) (i t o : ptr) :
  fprop_temporary_space_required Relies_On_Defaults this = None /\
  fprop_temporary_space_required Relies_On_Defaults this <> Some 0%N /\
  fprop_float Relies_On_Defaults this i t 0%N o tt = None /\
  fprop_double Relies_On_Defaults this i t 0%N o tt = None /\
  apply_double Relies_On_Defaults this i o tt = Some tt /\
  instantiable Relies_On_Defaults = false.
Proof. repeat split; try reflexivity. discriminate. Qed.

(** ** Rebuilding the parameter view *)

Lemma set_parameters_twice (p q : Parameters_Ref) (l : Layer) :
  set_parameters p (set_parameters q l) = set_parameters p l.
Proof. reflexivity. Qed.

Lemma parameters_set_parameters (p : Parameters_Ref) (l : Layer) :
  parameters_ (set_parameters p l) = p.
Proof. reflexivity. Qed.

Section Update_Parameters.

Context {Own Memory : Type}.
Implicit Types (cls : Derived_Class Own Memory) (this : Object Own).
Implicit Types (add : @add_parameters_sig Own).

Lemma clear_view_empty this : parameters_ (base (clear_view this)) = [].
Proof. reflexivity. Qed.

Lemma clear_view_twice this : clear_view (clear_view this) = clear_view this.
Proof. reflexivity. Qed.

(** Clearing forgets the old view and nothing else. *)
Lemma clear_view_stale this (stale : Parameters_Ref) :
  clear_view {| base := set_parameters stale (base this); own := own this |}
  = clear_view this.
Proof. reflexivity. Qed.

(** One call, spelled out. *)
Lemma update_parameters_eq cls add this :
  final_add_parameters cls = Some add ->
  update_parameters cls this = Some (add own_view (clear_view this)).
Proof. intros Hadd. unfold update_parameters. rewrite Hadd. reflexivity. Qed.

(** The call succeeds on every object of a class that has the overrider. *)
Lemma update_parameters_defined cls this :
  is_Some (final_add_parameters cls) -> is_Some (update_parameters cls this).
Proof.
  intros [add Hadd]. rewrite (update_parameters_eq _ _ _ Hadd). eauto.
Qed.


(** An overrider that writes nothing but [params] deposits reproducibly. *)
Lemma writes_params_only_reproducible add :
  writes_params_only add -> deposits_reproducibly add.
Proof. intros Hframe o. rewrite (Hframe o). reflexivity. Qed.

(** For such an overrider the second call returns the very object the
    first one left. *)
Lemma update_parameters_fixpoint cls add this once :
  final_add_parameters cls = Some add ->
  writes_params_only add ->
  update_parameters cls this = Some once ->
  update_parameters cls once = Some once.
Proof.
  intros Hadd Hframe. rewrite !(update_parameters_eq _ _ _ Hadd).
  intros [= <-]. rewrite (Hframe this). reflexivity.
Qed.


End Update_Parameters.



(** The rebuilt view of the two-buffer layer: the stale entry is gone,
    weights (3 x 2) and bias (2) are registered in that order. *)
Example update_parameters_two_buffers :
  parameters_ <$> (base <$> update_parameters Two_Buffers layer_3_2_stale)
  = Some [ mkParameter_Ref "weights" 0%N 6%N; mkParameter_Ref "bias" 1%N 2%N ].
Proof. reflexivity. Qed.

(** It is the clearing that makes the rebuild repeatable: [add_parameters]
    run twice on the same view registers every buffer twice. *)
Lemma add_parameters_alone_repeats :
  let once := two_buffers_add_parameters own_view layer_3_2 in
  let twice := two_buffers_add_parameters own_view once in
  parameters_ (base twice) = parameters_ (base once) ++ parameters_ (base once)
  /\ parameters_ (base twice) <> parameters_ (base once).
Proof. split; [reflexivity | discriminate]. Qed.

(** The two-buffer overrider writes nothing but [params]. *)
Lemma two_buffers_writes_params_only :
  writes_params_only two_buffers_add_parameters.
Proof. intros o. reflexivity. Qed.

(** Reproducible deposits ask less than that: the call counter changes its
    own members and [outputs_] at every call, and its view is rebuilt the
    same all the same; the object as a whole is not. *)
Lemma call_counter_reproducible :
  deposits_reproducibly call_counter_add_parameters /\
  ~ writes_params_only call_counter_add_parameters /\
  (update_parameters Call_Counter counting_layer
     ≫= update_parameters Call_Counter
   <> update_parameters Call_Counter counting_layer).
Proof.
  split; [intros o; reflexivity|]. split.
  - intros Hframe. specialize (Hframe counting_layer). discriminate Hframe.
  - simpl. discriminate.
Qed.

(** ** More on the inherited [max_width] *)

Section Max_Width.

Context {Own Memory : Type}.
Implicit Types (cls : Derived_Class Own Memory) (this : Object Own).

(** The inherited [max_width()] always returns, and what it returns is the
    least size that holds both an input and an output vector: it is at
    least [inputs()] and [outputs()], it is one of the two, and every size
    that is at least both is at least it. *)
Theorem max_width_least_upper_bound cls this :
  ov_max_width cls = None ->
  exists w,
    max_width cls this = Some w /\
    (inputs (base this) <= w)%N /\
    (outputs (base this) <= w)%N /\
    (w = inputs (base this) \/ w = outputs (base this)) /\
    (forall n, (inputs (base this) <= n)%N -> (outputs (base this) <= n)%N ->
               (w <= n)%N).
Proof.
  intros Hov. eexists. split; [exact (max_width_inherited _ _ Hov)|].
  unfold inputs, outputs. rewrite std_max_is_max.
  split; [lia|]. split; [lia|]. split; [lia|].
  intros n Hi Ho. lia.
Qed.

(** [std::max] cannot wrap: when both dimensions are values of [size_t],
    so is the inherited [max_width()]. *)
Theorem max_width_fits_size_t cls this :
  ov_max_width cls = None ->
  in_size_t (inputs (base this)) ->
  in_size_t (outputs (base this)) ->
  exists w, max_width cls this = Some w /\ in_size_t w.
Proof.
  intros Hov Hi Ho. eexists. split; [exact (max_width_inherited _ _ Hov)|].
  apply std_max_in_size_t; assumption.
Qed.

(** The inherited [max_width()] is zero exactly for the empty layer, the
    one with no inputs and no outputs. *)
Theorem max_width_zero_iff cls this :
  ov_max_width cls = None ->
  (max_width cls this = Some 0%N <->
   inputs (base this) = 0%N /\ outputs (base this) = 0%N).
Proof.
  intros Hov. rewrite (max_width_inherited _ _ Hov), std_max_is_max.
  unfold inputs, outputs. split.
  - intros [= Hmax]. lia.
  - intros [-> ->]. reflexivity.
Qed.

(** Exchanging the two dimensions does not change the inherited
    [max_width()]: one buffer of that size serves a layer in either
    direction. *)
Theorem max_width_exchange cls this that :
  ov_max_width cls = None ->
  inputs (base that) = outputs (base this) ->
  outputs (base that) = inputs (base this) ->
  max_width cls that = max_width cls this.
Proof.
  intros Hov Hi Ho. rewrite !(max_width_inherited _ _ Hov). f_equal.
  unfold inputs, outputs in Hi, Ho. rewrite Hi, Ho, !std_max_is_max. lia.
Qed.

End Max_Width.

Lemma max_width_least_upper_bound_witness :
  exists w,
    max_width Two_Buffers layer_3_2 = Some w /\
    (inputs (base layer_3_2) <= w)%N /\
    (outputs (base layer_3_2) <= w)%N /\
    (w = inputs (base layer_3_2) \/ w = outputs (base layer_3_2)) /\
    (forall n, (inputs (base layer_3_2) <= n)%N ->
               (outputs (base layer_3_2) <= n)%N -> (w <= n)%N).
Proof.
  apply (max_width_least_upper_bound Two_Buffers layer_3_2). reflexivity.
Defined.

Lemma max_width_fits_size_t_witness :
  exists w, max_width Two_Buffers layer_3_2 = Some w /\ in_size_t w.
Proof.
  apply (max_width_fits_size_t Two_Buffers layer_3_2).
  - reflexivity.
  - unfold in_size_t, SIZE_MAX. simpl. lia.
  - unfold in_size_t, SIZE_MAX. simpl. lia.
Defined.

Lemma max_width_zero_iff_witness :
  max_width Two_Buffers layer_3_2 = Some 0%N <->
  inputs (base layer_3_2) = 0%N /\ outputs (base layer_3_2) = 0%N.
Proof. apply (max_width_zero_iff Two_Buffers layer_3_2). reflexivity. Defined.

Lemma max_width_exchange_witness :
  max_width Two_Buffers {| base := mkLayer "back" 2%N 3%N []; own := tt |}
  = max_width Two_Buffers layer_3_2.
Proof.
  apply (max_width_exchange Two_Buffers layer_3_2).
  - reflexivity.
  - reflexivity.
  - reflexivity.
Defined.
